(** * StacksFort front end: the wallet hook and the multisig vault hook

    A shallow embedding of [src/hooks/useStacks.ts].  That file holds two
    React hooks:

    - [useStacks]: the wallet session; it derives the current [network] and
      [address] from the user data supplied by the wallet;
    - [useMultisig]: the vault state ([vault], [isLoading], [error]), the
      placeholder [fetchVault], and the read-only queries over the loaded
      vault.

    React state is modelled by explicit state passing: a hook is a record of
    its state variables, a derived value ([useMemo]) or a query
    ([useCallback]) is a function of that record, and [fetchVault] is the
    sequence of state-setter calls it performs, run against the record.

    JavaScript values are modelled as follows: a [string] is a
    [String.string]; [string | null], [string | undefined] and an optional
    field are [option string] ([None] for both [null] and [undefined], which
    the code never tells apart); an array is a [list]; the [number]
    [threshold] and [timestamp] are integers in [Z]; a string-literal union
    is an inductive type. *)

From Stdlib Require Import List String ZArith Bool Lia Permutation.
Import ListNotations.

Local Open Scope string_scope.
Local Open Scope list_scope.

(* ------------------------------------------------------------------ *)
(** ** JavaScript truthiness of strings *)

Module Js.

(** A string is falsy exactly when it is empty. *)
Definition truthy (s : string) : bool := negb (s =? "").

(** [!x] for [x : string | null | undefined]. *)
Definition not (x : option string) : bool :=
  match x with
  | None => true
  | Some s => negb (truthy s)
  end.

(** [a || b] for operands of type [string | null | undefined]. *)
Definition or (a b : option string) : option string :=
  match a with
  | Some s => if truthy s then a else b
  | None => b
  end.

End Js.

(* ------------------------------------------------------------------ *)
(** ** First match in a list: what [Array.prototype.find] returns *)

(** [x] is the first element of [l] that satisfies [P]. *)
Definition firstWith {A : Type} (P : A -> Prop) (l : list A) (x : A) : Prop :=
  exists pre post, l = pre ++ x :: post /\ P x /\ Forall (fun y => ~ P y) pre.

(* ------------------------------------------------------------------ *)
(** ** [useStacks]: the wallet session hook *)

Module UseStacks.

(** [StacksUserProfile.stxAddress]: both fields are optional. *)
Record StxAddress := {
  mainnet : option string;
  testnet : option string
}.

Record StacksUserProfile := {
  stxAddress : option StxAddress
}.

Record StacksUserData := {
  profile : option StacksUserProfile
}.

Inductive StacksNetwork := net_mainnet | net_testnet | net_disconnected.

(** [userData?.profile?.stxAddress] *)
Definition stxAddressOf (userData : option StacksUserData) : option StxAddress :=
  match userData with
  | None => None
  | Some d =>
      match profile d with
      | None => None
      | Some p => stxAddress p
      end
  end.

(** The [network] memo. *)
Definition network (userData : option StacksUserData) : StacksNetwork :=
  match stxAddressOf userData with
  | None => net_disconnected
  | Some sa =>
      if negb (Js.not (testnet sa)) then net_testnet
      else if negb (Js.not (mainnet sa)) then net_mainnet
      else net_disconnected
  end.

(** The [address] memo: [testnet || mainnet || null]. *)
Definition address (userData : option StacksUserData) : option string :=
  match stxAddressOf userData with
  | None => None
  | Some sa => Js.or (Js.or (testnet sa) (mainnet sa)) None
  end.

(** Builds the user data of a wallet that reports the two addresses. *)
Definition userDataOf (t m : option string) : option StacksUserData :=
  Some {| profile := Some {| stxAddress := Some {| mainnet := m; testnet := t |} |} |}.

(** *** The hook state and its callbacks *)

(** The two [useState] cells of [useStacks]. *)
Record HookState := {
  userData : option StacksUserData;
  isReady : bool
}.

(** [isSignedIn: !!userData]: an object is truthy, [null] is not. *)
Definition isSignedIn (st : HookState) : bool :=
  match userData st with
  | Some _ => true
  | None => false
  end.

(** A call into the wallet library either returns or throws. *)
Inductive Outcome (A : Type) :=
| returns (a : A)
| throws.

Arguments returns {A} a.
Arguments throws {A}.

(** An awaited promise resolves, rejects, or never settles. *)
Inductive Settled (A : Type) :=
| resolved (a : A)
| rejected
| unsettled.

Arguments resolved {A} a.
Arguments rejected {A}.
Arguments unsettled {A}.

(** What [userSession] answers to the hook. *)
Record UserSession := {
  isSignInPending : Outcome bool;
  handlePendingSignIn : Outcome (Settled StacksUserData);
  isUserSignedIn : Outcome bool;
  loadUserData : Outcome StacksUserData
}.

(** What the hook does to its state and to the outside. *)
Inductive HookCall :=
| setUserData (d : option StacksUserData)
| setIsReady (b : bool)
| consoleError
| signUserOut.

Definition applyHookCall (st : HookState) (c : HookCall) : HookState :=
  match c with
  | setUserData d => {| userData := d; isReady := isReady st |}
  | setIsReady b => {| userData := userData st; isReady := b |}
  | consoleError => st
  | signUserOut => st
  end.

Definition applyHookCalls (st : HookState) (cs : list HookCall) : HookState :=
  fold_left applyHookCall cs st.

(** [if (!cancelled) { ... }] *)
Definition unlessCancelled (cancelled : bool) (cs : list HookCall) : list HookCall :=
  if cancelled then [] else cs.

(** The calls of [initializeSession], in program order.  The effect's
    cleanup sets [cancelled]; it can run only while the function is
    suspended at its one [await], so [cancelledAtAwait] is the flag as read
    after the promise has settled, and on every path that does not reach
    the [await] the flag is still [false].  While the promise does not
    settle the function stays suspended: neither [catch] nor [finally]
    runs. *)
Definition initializeSession (s : UserSession) (cancelledAtAwait : bool)
  : list HookCall :=
  match isSignInPending s with
  | throws => [consoleError] ++ unlessCancelled false [setIsReady true]
  | returns true =>
      match handlePendingSignIn s with
      | throws => [consoleError] ++ unlessCancelled false [setIsReady true]
      | returns (resolved data) =>
          unlessCancelled cancelledAtAwait [setUserData (Some data)]
          ++ unlessCancelled cancelledAtAwait [setIsReady true]
      | returns rejected =>
          [consoleError] ++ unlessCancelled cancelledAtAwait [setIsReady true]
      | returns unsettled => []
      end
  | returns false =>
      match isUserSignedIn s with
      | throws => [consoleError] ++ unlessCancelled false [setIsReady true]
      | returns true =>
          match loadUserData s with
          | throws => [consoleError] ++ unlessCancelled false [setIsReady true]
          | returns data =>
              unlessCancelled false [setUserData (Some data)]
              ++ unlessCancelled false [setIsReady true]
          end
      | returns false => unlessCancelled false [setIsReady true]
      end
  end.

(** How the wallet popup opened by [showConnect] ends. *)
Inductive ConnectResult := onFinish | onCancel.

(** The calls of [connect]: nothing without a [window]; otherwise the
    popup's callback runs.  An exception of [loadUserData] inside
    [onFinish] leaves the hook before [setUserData]. *)
Definition connect (hasWindow : bool) (s : UserSession) (r : ConnectResult)
  : list HookCall :=
  if negb hasWindow then []
  else
    match r with
    | onFinish =>
        match loadUserData s with
        | returns data => [setUserData (Some data)]
        | throws => []
        end
    | onCancel => []
    end.

(** The calls of [disconnect]: [userSession.signUserOut()] runs first and
    is not guarded, so when it throws [setUserData(null)] is not
    reached. *)
Definition disconnect (signOut : Outcome unit) : list HookCall :=
  match signOut with
  | returns _ => [signUserOut; setUserData None]
  | throws => [signUserOut]
  end.

(** *** Sample sessions *)

Definition sampleUserData : StacksUserData :=
  {| profile := Some {| stxAddress :=
       Some {| mainnet := Some "SP1MAIN"; testnet := Some "ST1TEST" |} |} |}.

Definition storedUserData : StacksUserData :=
  {| profile := Some {| stxAddress :=
       Some {| mainnet := Some "SP2STORED"; testnet := None |} |} |}.

(** A session whose sign-in is pending and resolves, while a stored
    session exists as well. *)
Definition pendingSession : UserSession :=
  {| isSignInPending := returns true;
     handlePendingSignIn := returns (resolved sampleUserData);
     isUserSignedIn := returns true;
     loadUserData := returns storedUserData |}.


Definition freshHook : HookState :=
  {| userData := None; isReady := false |}.

Definition signedInHook : HookState :=
  {| userData := Some sampleUserData; isReady := true |}.

(** A session whose pending sign-in never settles. *)
Definition hangingSession : UserSession :=
  {| isSignInPending := returns true;
     handlePendingSignIn := returns unsettled;
     isUserSignedIn := returns true;
     loadUserData := returns storedUserData |}.

(** A session whose every call throws. *)
Definition throwingSession : UserSession :=
  {| isSignInPending := throws;
     handlePendingSignIn := throws;
     isUserSignedIn := throws;
     loadUserData := throws |}.

End UseStacks.

(* ------------------------------------------------------------------ *)
(** ** [useMultisig]: the vault hook *)

Module UseMultisig.

(** Field names carry the name of their interface as a prefix, since
    [address] and [signers] occur in several interfaces. *)
Record MultisigSigner := {
  signer_address : string;
  signer_hasSigned : bool
}.

Inductive TransactionStatus :=
  pending | signed | ready_to_execute | executed | failed.

Inductive TransactionType := stx_transfer | token_transfer.

Record MultisigTransaction := {
  tx_id : string;
  tx_type : TransactionType;
  tx_amount : string;
  tx_recipient : string;
  tx_tokenContract : option string;
  tx_txHash : string;
  tx_status : TransactionStatus;
  tx_signers : list MultisigSigner;
  tx_timestamp : Z;
  tx_executedTxId : option string
}.

Record MultisigVault := {
  vault_address : string;
  vault_signers : list string;
  vault_threshold : Z;
  vault_balance : string;
  vault_transactions : list MultisigTransaction
}.

(** [===] on two statuses. *)
Definition status_eqb (a b : TransactionStatus) : bool :=
  match a, b with
  | pending, pending
  | signed, signed
  | ready_to_execute, ready_to_execute
  | executed, executed
  | failed, failed => true
  | _, _ => false
  end.

(** The state of the hook: the user data held by the inner [useStacks]
    call and the three [useState] cells. *)
Record State := {
  userData : option UseStacks.StacksUserData;
  vault : option MultisigVault;
  isLoading : bool;
  error : option string
}.

(** The state on first render. *)
Definition initialState (ud : option UseStacks.StacksUserData) : State :=
  {| userData := ud; vault := None; isLoading := false; error := None |}.

(** [const { address: userAddress } = useStacks()] *)
Definition userAddress (st : State) : option string :=
  UseStacks.address (userData st).

(** *** [fetchVault] *)

(** A call of one of the three state setters. *)
Inductive SetterCall :=
| setVault (v : option MultisigVault)
| setIsLoading (b : bool)
| setError (e : option string).

Definition applyCall (st : State) (c : SetterCall) : State :=
  match c with
  | setVault v =>
      {| userData := userData st; vault := v;
         isLoading := isLoading st; error := error st |}
  | setIsLoading b =>
      {| userData := userData st; vault := vault st;
         isLoading := b; error := error st |}
  | setError e =>
      {| userData := userData st; vault := vault st;
         isLoading := isLoading st; error := e |}
  end.

Definition applyCalls (st : State) (cs : list SetterCall) : State :=
  fold_left applyCall cs st.

Definition signerA := "SP2RVXN8ZCJQY8ZCJQY8ZCJQY8ZCJQY8ZCJQY8Z".
Definition signerB := "ST2RVXN8ZCJQY8ZCJQY8ZCJQY8ZCJQY8ZCJQY8Z".
Definition signerC := "SP3RVXN8ZCJQY8ZCJQY8ZCJQY8ZCJQY8ZCJQY8Z".

(** The placeholder vault; [now] is the value of [Date.now()]. *)
Definition mockVaultData (vaultAddress : string) (now : Z) : MultisigVault :=
  {| vault_address := vaultAddress;
     vault_signers := [signerA; signerB; signerC];
     vault_threshold := 2;
     vault_balance := "5000000000";
     vault_transactions :=
       [ {| tx_id := "txn-001";
            tx_type := stx_transfer;
            tx_amount := "1000000";
            tx_recipient := signerB;
            tx_tokenContract := None;
            tx_txHash := "0x1234567890abcdef";
            tx_status := pending;
            tx_signers :=
              [ {| signer_address := signerA; signer_hasSigned := true |};
                {| signer_address := signerB; signer_hasSigned := false |};
                {| signer_address := signerC; signer_hasSigned := false |} ];
            tx_timestamp := now;
            tx_executedTxId := None |} ] |}.

(** The body of the [try] block: either the message of a thrown error
    or the vault to store.  Building the object literal and reading the
    clock cannot throw, so the body always yields the vault. *)
Definition fetchVaultBody (vaultAddress : string) (now : Z)
  : string + MultisigVault :=
  inr (mockVaultData vaultAddress now).

(** The setter calls of [fetchVault(vaultAddress)], in program order.
    The early [return] precedes the [try], so its [finally] does not run
    on that path. *)
Definition fetchVaultCalls (vaultAddress : string) (now : Z) : list SetterCall :=
  if negb (Js.truthy vaultAddress) then
    [setError (Some "Vault address is required")]
  else
    [setIsLoading true; setError None]
    ++ match fetchVaultBody vaultAddress now with
       | inr mockVault => [setVault (Some mockVault)]
       | inl errorMessage => [setError (Some errorMessage)]
       end
    ++ [setIsLoading false].

Definition fetchVault (st : State) (vaultAddress : string) (now : Z) : State :=
  applyCalls st (fetchVaultCalls vaultAddress now).

(** *** Derived values and queries *)

(** [vault.signers.includes(userAddress)] *)
Definition includes (l : list string) (x : string) : bool :=
  existsb (fun y => y =? x) l.

Definition isSigner (st : State) : bool :=
  match vault st, userAddress st with
  | Some v, Some a =>
      if negb (Js.truthy a) then false else includes (vault_signers v) a
  | _, _ => false
  end.

Definition getTransaction (st : State) (txId : string)
  : option MultisigTransaction :=
  match vault st with
  | None => None
  | Some v => find (fun tx => tx_id tx =? txId) (vault_transactions v)
  end.

Definition getSignatureCount (st : State) (txId : string) : nat :=
  match getTransaction st txId with
  | None => 0
  | Some tx => List.length (filter (fun signer => signer_hasSigned signer) (tx_signers tx))
  end.

Definition isReadyToExecute (st : State) (txId : string) : bool :=
  match vault st with
  | None => false
  | Some v => (Z.of_nat (getSignatureCount st txId) >=? vault_threshold v)%Z
  end.

Definition getPendingTransactions (st : State) : list MultisigTransaction :=
  match vault st with
  | None => []
  | Some v =>
      filter (fun tx => negb (status_eqb (tx_status tx) executed))
             (vault_transactions v)
  end.

Definition getExecutedTransactions (st : State) : list MultisigTransaction :=
  match vault st with
  | None => []
  | Some v =>
      filter (fun tx => status_eqb (tx_status tx) executed)
             (vault_transactions v)
  end.

Definition hasUserSigned (st : State) (txId : string) : bool :=
  match userAddress st with
  | None => false
  | Some a =>
      if negb (Js.truthy a) then false
      else
        match getTransaction st txId with
        | None => false
        | Some tx =>
            match find (fun s => signer_address s =? a) (tx_signers tx) with
            | Some signer => signer_hasSigned signer
            | None => false
            end
        end
  end.

(** *** The Quorum Evaluator as the specification words it *)

(** "count of signers where hasSigned = true" *)
Fixpoint spec_signatureCount (signers : list MultisigSigner) : nat :=
  match signers with
  | [] => 0
  | s :: rest =>
      (if signer_hasSigned s then 1 else 0) + spec_signatureCount rest
  end.

(** "isReady(tx, threshold) = signatureCount(tx) >= threshold" *)
Definition spec_isReady (tx : MultisigTransaction) (threshold : Z) : Prop :=
  (Z.of_nat (spec_signatureCount (tx_signers tx)) >= threshold)%Z.

(** *** Comparing two snapshots of a vault *)

(** Two transactions agree on every field but [timestamp]. *)
Definition sameButTimestamp (t1 t2 : MultisigTransaction) : Prop :=
  tx_id t1 = tx_id t2 /\
  tx_type t1 = tx_type t2 /\
  tx_amount t1 = tx_amount t2 /\
  tx_recipient t1 = tx_recipient t2 /\
  tx_tokenContract t1 = tx_tokenContract t2 /\
  tx_txHash t1 = tx_txHash t2 /\
  tx_status t1 = tx_status t2 /\
  tx_signers t1 = tx_signers t2 /\
  tx_executedTxId t1 = tx_executedTxId t2.

(** The vault invariant of the data model. *)
Definition vaultInvariant (v : MultisigVault) : Prop :=
  (1 <= vault_threshold v <= Z.of_nat (List.length (vault_signers v)))%Z.

(** *** Sample states *)

(** The state after a signed-in user with testnet address [user] has
    fetched the vault "SP000VAULT". *)
Definition loadedState (user : string) : State :=
  fetchVault (initialState (UseStacks.userDataOf (Some user) None))
             "SP000VAULT" 1700000000000.

Definition sampleTx (id : string) (status : TransactionStatus)
    (a b c : bool) : MultisigTransaction :=
  {| tx_id := id;
     tx_type := stx_transfer;
     tx_amount := "1000000";
     tx_recipient := signerB;
     tx_tokenContract := None;
     tx_txHash := "0x1234567890abcdef";
     tx_status := status;
     tx_signers :=
       [ {| signer_address := signerA; signer_hasSigned := a |};
         {| signer_address := signerB; signer_hasSigned := b |};
         {| signer_address := signerC; signer_hasSigned := c |} ];
     tx_timestamp := 1700000000000;
     tx_executedTxId := None |}.

(** A vault with one transaction of each status. *)
Definition sampleVault : MultisigVault :=
  {| vault_address := "SP000VAULT";
     vault_signers := [signerA; signerB; signerC];
     vault_threshold := 2;
     vault_balance := "5000000000";
     vault_transactions :=
       [ sampleTx "txn-001" pending false false false;
         sampleTx "txn-002" executed true true false;
         sampleTx "txn-003" signed true false false;
         sampleTx "txn-004" failed true false true;
         sampleTx "txn-005" ready_to_execute false true true ] |}.

Definition sampleState : State :=
  {| userData := UseStacks.userDataOf (Some signerB) (Some signerA);
     vault := Some sampleVault;
     isLoading := false;
     error := None |}.

(** A loaded vault whose threshold is 0, below what the data model
    allows. *)
Definition zeroThresholdState : State :=
  {| userData := UseStacks.userDataOf (Some signerB) None;
     vault := Some {| vault_address := "SP000VAULT";
                      vault_signers := [signerA; signerB; signerC];
                      vault_threshold := 0;
                      vault_balance := "0";
                      vault_transactions :=
                        [ sampleTx "txn-001" pending false false false ] |};
     isLoading := false;
     error := None |}.

End UseMultisig.

(* ------------------------------------------------------------------ *)
(** ** [MultisigDashboard]: address formatting *)

Module Dashboard.

(** A string of the dashboard is its sequence of UTF-16 code units, the
    positions [slice] counts in. *)
Definition JsString := list N.

(** [s.slice(start, end)]; [None] is an omitted [end].  A negative index
    counts from the end, and every index is clamped to the string. *)
Definition slice {A : Type} (s : list A) (start : Z) (end_ : option Z) : list A :=
  let len := Z.of_nat (List.length s) in
  let from := if (start <? 0)%Z then Z.max (len + start) 0 else Z.min start len in
  let e := match end_ with None => len | Some e => e end in
  let to := if (e <? 0)%Z then Z.max (len + e) 0 else Z.min e len in
  firstn (Z.to_nat (Z.max (to - from) 0)) (skipn (Z.to_nat from) s).

(** The three code units that stand between the two interpolations of the
    template literal: U+00E2, U+20AC, U+00A6. *)
Definition separator : JsString := [226%N; 8364%N; 166%N].

Definition formatAddress (address : JsString) : JsString :=
  slice address 0 (Some 6%Z) ++ separator ++ slice address (-4) None.

(** The code units of an ASCII string, one per character. *)
Definition codeUnits (s : string) : JsString :=
  map Ascii.N_of_ascii (list_ascii_of_string s).

(** The first signer address of the dashboard's mock data. *)
Definition adminAddress : JsString :=
  codeUnits "ST1PQHQKV0RJXZFY1DGX8MNSNYVE3VGZJSRTPGZGM".

End Dashboard.


(* ================================================================== *)
(** * Properties *)

Import UseStacks UseMultisig.

(* ------------------------------------------------------------------ *)
(** ** Truthiness *)

Lemma truthy_true s : Js.truthy s = true <-> s <> "".
Proof.
  unfold Js.truthy. rewrite negb_true_iff. apply String.eqb_neq.
Qed.

Lemma truthy_false s : Js.truthy s = false <-> s = "".
Proof.
  unfold Js.truthy. rewrite negb_false_iff. apply String.eqb_eq.
Qed.

Lemma or_null_truthy a s : Js.or a None = Some s -> Js.truthy s = true.
Proof.
  unfold Js.or. destruct a as [x|]; [|discriminate].
  destruct (Js.truthy x) eqn:E; [|discriminate].
  intros H; inversion H; subst. exact E.
Qed.

(* ------------------------------------------------------------------ *)
(** ** [find] returns the first match *)

Section FirstMatch.

Context {A : Type}.
Variable p : A -> bool.
Variable P : A -> Prop.
Hypothesis p_reflects : forall y, p y = true <-> P y.

Lemma find_Some_firstWith l x : find p l = Some x <-> firstWith P l x.
Proof.
  induction l as [|y l IH]; simpl.
  - split; [discriminate|].
    intros (pre & post & H & _). now destruct pre.
  - destruct (p y) eqn:E.
    + split.
      * intros H; inversion H; subst.
        exists [], l. repeat split; [now apply p_reflects | constructor].
      * intros (pre & post & H & Hx & Hpre).
        destruct pre as [|z pre]; simpl in H; inversion H; subst; [reflexivity|].
        inversion Hpre; subst. exfalso. apply H2. now apply p_reflects.
    + rewrite IH. split.
      * intros (pre & post & H & Hx & Hpre).
        exists (y :: pre), post. subst. repeat split; [assumption|].
        constructor; [|assumption].
        intros Hy. apply p_reflects in Hy. congruence.
      * intros (pre & post & H & Hx & Hpre).
        destruct pre as [|z pre]; simpl in H; inversion H; subst.
        -- apply p_reflects in Hx. congruence.
        -- inversion Hpre; subst. now exists pre, post.
Qed.

Lemma find_None_Forall l : find p l = None <-> Forall (fun y => ~ P y) l.
Proof.
  induction l as [|y l IH]; simpl.
  - split; [constructor | reflexivity].
  - destruct (p y) eqn:E.
    + split; [discriminate|].
      intros H; inversion H; subst. exfalso. apply H2. now apply p_reflects.
    + rewrite IH. split.
      * intros H. constructor; [|assumption].
        intros Hy. apply p_reflects in Hy. congruence.
      * intros H; now inversion H.
Qed.

End FirstMatch.

Lemma Forall_not_In_map {A B : Type} (f : A -> B) (b : B) (l : list A) :
  Forall (fun y => f y <> b) l <-> ~ In b (map f l).
Proof.
  rewrite Forall_forall, in_map_iff. split.
  - intros H (y & Hy & Hin). exact (H y Hin Hy).
  - intros H y Hin Hy. apply H. now exists y.
Qed.

Lemma tx_id_reflects txId tx : (tx_id tx =? txId) = true <-> tx_id tx = txId.
Proof. apply String.eqb_eq. Qed.

Lemma signer_address_reflects a s :
  (signer_address s =? a) = true <-> signer_address s = a.
Proof. apply String.eqb_eq. Qed.

Lemma status_eqb_eq a b : status_eqb a b = true <-> a = b.
Proof. destruct a, b; simpl; split; congruence. Qed.

(* ------------------------------------------------------------------ *)
(** ** The current address *)

(** The address handed to [useMultisig] is never the empty string. *)
Lemma address_truthy ud a : address ud = Some a -> Js.truthy a = true.
Proof.
  unfold address. destruct (stxAddressOf ud); [|discriminate].
  apply or_null_truthy.
Qed.

Lemma userAddress_truthy st a : userAddress st = Some a -> Js.truthy a = true.
Proof. apply address_truthy. Qed.

(** C9. The address memo prefers testnet over mainnet.  An address is
    present when its field holds a non-empty string (what [||] tests).
    For user data whose profile has an [stxAddress] object: with the
    testnet address present the result is that address, whatever the
    mainnet field holds; with no testnet address and the mainnet address
    present the result is the mainnet address; with neither it is null.
    Without user data, without profile, or without [stxAddress] object
    it is null. *)
Theorem address_prefers_testnet (ud : option StacksUserData) :
  (forall d p sa t,
     ud = Some d -> profile d = Some p -> stxAddress p = Some sa ->
     testnet sa = Some t -> t <> "" -> address ud = Some t) /\
  (forall d p sa m,
     ud = Some d -> profile d = Some p -> stxAddress p = Some sa ->
     (testnet sa = None \/ testnet sa = Some "") ->
     mainnet sa = Some m -> m <> "" -> address ud = Some m) /\
  (forall d p sa,
     ud = Some d -> profile d = Some p -> stxAddress p = Some sa ->
     (testnet sa = None \/ testnet sa = Some "") ->
     (mainnet sa = None \/ mainnet sa = Some "") -> address ud = None) /\
  (ud = None -> address ud = None) /\
  (forall d, ud = Some d -> profile d = None -> address ud = None) /\
  (forall d p, ud = Some d -> profile d = Some p -> stxAddress p = None ->
     address ud = None).
Proof.
  unfold address, stxAddressOf. split; [|split; [|split; [|split; [|split]]]].
  - intros d p sa t -> -> -> Ht Hne. apply truthy_true in Hne.
    unfold Js.or. rewrite Ht, Hne. now rewrite Hne.
  - intros d p sa m -> -> -> Ht Hm Hne. apply truthy_true in Hne.
    destruct Ht as [-> | ->]; simpl; rewrite Hm; simpl; now rewrite Hne.
  - intros d p sa -> -> -> Ht Hm.
    destruct Ht as [-> | ->], Hm as [-> | ->]; reflexivity.
  - now intros ->.
  - now intros d -> ->.
  - now intros d p -> -> ->.
Qed.

Lemma address_prefers_testnet_witness :
  address (userDataOf (Some "ST1TEST") (Some "SP1MAIN")) = Some "ST1TEST" /\
  address (userDataOf (Some "ST1TEST") None) = Some "ST1TEST" /\
  address (userDataOf (Some "") (Some "SP1MAIN")) = Some "SP1MAIN" /\
  address (userDataOf None (Some "SP1MAIN")) = Some "SP1MAIN" /\
  address (userDataOf None None) = None /\
  address None = None /\
  address (Some {| profile := None |}) = None /\
  address (Some {| profile := Some {| stxAddress := None |} |}) = None.
Proof.
  split; [|split; [|split; [|split; [|split; [|split; [|split]]]]]].
  - apply (proj1 (address_prefers_testnet (userDataOf (Some "ST1TEST") (Some "SP1MAIN")))
             {| profile := Some {| stxAddress :=
                  Some {| mainnet := Some "SP1MAIN"; testnet := Some "ST1TEST" |} |} |}
             {| stxAddress := Some {| mainnet := Some "SP1MAIN"; testnet := Some "ST1TEST" |} |}
             {| mainnet := Some "SP1MAIN"; testnet := Some "ST1TEST" |} "ST1TEST");
      [reflexivity | reflexivity | reflexivity | reflexivity | discriminate].
  - apply (proj1 (address_prefers_testnet (userDataOf (Some "ST1TEST") None))
             {| profile := Some {| stxAddress :=
                  Some {| mainnet := None; testnet := Some "ST1TEST" |} |} |}
             {| stxAddress := Some {| mainnet := None; testnet := Some "ST1TEST" |} |}
             {| mainnet := None; testnet := Some "ST1TEST" |} "ST1TEST");
      [reflexivity | reflexivity | reflexivity | reflexivity | discriminate].
  - apply (proj1 (proj2 (address_prefers_testnet (userDataOf (Some "") (Some "SP1MAIN"))))
             {| profile := Some {| stxAddress :=
                  Some {| mainnet := Some "SP1MAIN"; testnet := Some "" |} |} |}
             {| stxAddress := Some {| mainnet := Some "SP1MAIN"; testnet := Some "" |} |}
             {| mainnet := Some "SP1MAIN"; testnet := Some "" |} "SP1MAIN");
      [reflexivity | reflexivity | reflexivity | right; reflexivity
       | reflexivity | discriminate].
  - apply (proj1 (proj2 (address_prefers_testnet (userDataOf None (Some "SP1MAIN"))))
             {| profile := Some {| stxAddress :=
                  Some {| mainnet := Some "SP1MAIN"; testnet := None |} |} |}
             {| stxAddress := Some {| mainnet := Some "SP1MAIN"; testnet := None |} |}
             {| mainnet := Some "SP1MAIN"; testnet := None |} "SP1MAIN");
      [reflexivity | reflexivity | reflexivity | left; reflexivity
       | reflexivity | discriminate].
  - apply (proj1 (proj2 (proj2 (address_prefers_testnet (userDataOf None None))))
             {| profile := Some {| stxAddress :=
                  Some {| mainnet := None; testnet := None |} |} |}
             {| stxAddress := Some {| mainnet := None; testnet := None |} |}
             {| mainnet := None; testnet := None |});
      [reflexivity | reflexivity | reflexivity | left; reflexivity | left; reflexivity].
  - apply (proj1 (proj2 (proj2 (proj2 (address_prefers_testnet None))))). reflexivity.
  - apply (proj1 (proj2 (proj2 (proj2 (proj2
             (address_prefers_testnet (Some {| profile := None |}))))))
             {| profile := None |}); reflexivity.
  - apply (proj2 (proj2 (proj2 (proj2 (proj2
             (address_prefers_testnet
                (Some {| profile := Some {| stxAddress := None |} |}))))))
             {| profile := Some {| stxAddress := None |} |}
             {| stxAddress := None |}); reflexivity.
Defined.

(* ------------------------------------------------------------------ *)
(** ** Queries over the loaded vault *)

Lemma includes_In l x : includes l x = true <-> In x l.
Proof.
  unfold includes. rewrite existsb_exists. split.
  - intros (y & Hin & Hy). apply String.eqb_eq in Hy. now subst.
  - intros Hin. exists x. split; [assumption | apply String.eqb_refl].
Qed.

(** C7. [isSigner] holds exactly when a vault is loaded, the current
    address is set and that address is one of the vault's signers (the
    same string); it is false when the vault or the address is null. *)
Theorem isSigner_spec (st : State) :
  (isSigner st = true <->
     exists v a, vault st = Some v /\ userAddress st = Some a /\
                 In a (vault_signers v)) /\
  (vault st = None -> isSigner st = false) /\
  (userAddress st = None -> isSigner st = false).
Proof.
  unfold isSigner. split; [|split].
  - destruct (vault st) as [v|].
    + destruct (userAddress st) as [a|] eqn:Ha.
      * rewrite (userAddress_truthy st a Ha). simpl. rewrite includes_In. split.
        -- intros Hin. now exists v, a.
        -- intros (v' & a' & Hv & Ha' & Hin). congruence.
      * split; [discriminate|]. intros (v' & a' & _ & Ha' & _). discriminate.
    + split; [discriminate|]. intros (v' & a' & Hv & _). discriminate.
  - now intros ->.
  - intros ->. now destruct (vault st).
Qed.

Lemma getTransaction_firstWith st v txId tx :
  vault st = Some v ->
  getTransaction st txId = Some tx <->
  firstWith (fun t => tx_id t = txId) (vault_transactions v) tx.
Proof.
  intros Hv. unfold getTransaction. rewrite Hv.
  apply find_Some_firstWith. intros y. apply tx_id_reflects.
Qed.

Lemma getTransaction_None st v txId :
  vault st = Some v ->
  getTransaction st txId = None <-> ~ In txId (map tx_id (vault_transactions v)).
Proof.
  intros Hv. unfold getTransaction. rewrite Hv.
  rewrite <- Forall_not_In_map.
  apply find_None_Forall. intros y. apply tx_id_reflects.
Qed.

Lemma filter_length_signatureCount signers :
  List.length (filter (fun signer => signer_hasSigned signer) signers)
  = spec_signatureCount signers.
Proof.
  induction signers as [|s rest IH]; simpl; [reflexivity|].
  destruct (signer_hasSigned s); simpl; now rewrite IH.
Qed.

Lemma isReadyToExecute_threshold st v txId :
  vault st = Some v ->
  isReadyToExecute st txId = true <->
  (Z.of_nat (getSignatureCount st txId) >= vault_threshold v)%Z.
Proof.
  intros Hv. unfold isReadyToExecute. rewrite Hv.
  rewrite Z.geb_le. lia.
Qed.

(** C1. In a loaded vault, for a transaction id that occurs in the
    transaction list, the id denotes the first transaction carrying it;
    [getSignatureCount] is the number of that transaction's signers with
    [hasSigned] true, and [isReadyToExecute] is true exactly when that
    count reaches the vault's threshold. *)
Theorem getSignatureCount_isReadyToExecute_spec (st : State) (v : MultisigVault)
    (txId : string) :
  vault st = Some v ->
  In txId (map tx_id (vault_transactions v)) ->
  exists tx,
    firstWith (fun t => tx_id t = txId) (vault_transactions v) tx /\
    getSignatureCount st txId = spec_signatureCount (tx_signers tx) /\
    (isReadyToExecute st txId = true <->
       (Z.of_nat (getSignatureCount st txId) >= vault_threshold v)%Z) /\
    (isReadyToExecute st txId = true <-> spec_isReady tx (vault_threshold v)).
Proof.
  intros Hv Hin.
  destruct (getTransaction st txId) as [tx|] eqn:Hget.
  - exists tx.
    assert (Hcount : getSignatureCount st txId = spec_signatureCount (tx_signers tx)).
    { unfold getSignatureCount. rewrite Hget. apply filter_length_signatureCount. }
    split; [now apply (getTransaction_firstWith st v) | split; [exact Hcount | split]].
    + now apply isReadyToExecute_threshold.
    + unfold spec_isReady. rewrite <- Hcount. now apply isReadyToExecute_threshold.
  - apply (getTransaction_None st v txId Hv) in Hget. contradiction.
Qed.

(** C3. In a loaded vault whose threshold is at least 1, an id that does
    not occur in the transaction list has signature count 0 and is not
    ready to execute.  Both queries are total functions: there is no error
    outcome. *)
Theorem unknown_id_neutral (st : State) (v : MultisigVault) (txId : string) :
  vault st = Some v ->
  (1 <= vault_threshold v)%Z ->
  ~ In txId (map tx_id (vault_transactions v)) ->
  getSignatureCount st txId = 0 /\ isReadyToExecute st txId = false.
Proof.
  intros Hv Hthr Hnotin.
  apply (getTransaction_None st v txId Hv) in Hnotin.
  assert (Hcount : getSignatureCount st txId = 0).
  { unfold getSignatureCount. now rewrite Hnotin. }
  split; [exact Hcount|].
  unfold isReadyToExecute. rewrite Hv, Hcount. simpl.
  rewrite Z.geb_leb. apply Z.leb_gt. lia.
Qed.

Lemma filter_split_Permutation {A : Type} (f : A -> bool) (l : list A) :
  Permutation (filter (fun x => negb (f x)) l ++ filter f l) l.
Proof.
  induction l as [|x l IH]; simpl; [constructor|].
  destruct (f x); simpl.
  - apply Permutation_sym, Permutation_cons_app, Permutation_sym, IH.
  - now constructor.
Qed.

(** C2. In a loaded vault, [getPendingTransactions] returns exactly the
    transactions whose status is not [executed] (hence every [failed]
    one), [getExecutedTransactions] exactly those whose status is
    [executed]; no transaction is in both results, and the two results
    split the transaction list: they are its order-preserving partition by
    status, and together a permutation of it. *)
Theorem pending_executed_partition (st : State) (v : MultisigVault) :
  vault st = Some v ->
  (forall tx, In tx (getPendingTransactions st) <->
              In tx (vault_transactions v) /\ tx_status tx <> executed) /\
  (forall tx, In tx (getExecutedTransactions st) <->
              In tx (vault_transactions v) /\ tx_status tx = executed) /\
  (forall tx, In tx (vault_transactions v) -> tx_status tx = failed ->
              In tx (getPendingTransactions st)) /\
  (forall tx, In tx (getPendingTransactions st) ->
              ~ In tx (getExecutedTransactions st)) /\
  partition (fun tx => status_eqb (tx_status tx) executed) (vault_transactions v)
    = (getExecutedTransactions st, getPendingTransactions st) /\
  Permutation (getPendingTransactions st ++ getExecutedTransactions st)
              (vault_transactions v).
Proof.
  intros Hv. unfold getPendingTransactions, getExecutedTransactions. rewrite Hv.
  assert (Hp : forall tx,
             In tx (filter (fun t => negb (status_eqb (tx_status t) executed))
                           (vault_transactions v)) <->
             In tx (vault_transactions v) /\ tx_status tx <> executed).
  { intros tx. rewrite filter_In, negb_true_iff, <- not_true_iff_false, status_eqb_eq.
    reflexivity. }
  assert (He : forall tx,
             In tx (filter (fun t => status_eqb (tx_status t) executed)
                           (vault_transactions v)) <->
             In tx (vault_transactions v) /\ tx_status tx = executed).
  { intros tx. rewrite filter_In, status_eqb_eq. reflexivity. }
  split; [exact Hp | split; [exact He | split; [|split; [|split]]]].
  - intros tx Hin Hst. apply Hp. split; [assumption | congruence].
  - intros tx H1 H2. apply Hp in H1. apply He in H2. tauto.
  - apply partition_as_filter.
  - apply (filter_split_Permutation (fun t => status_eqb (tx_status t) executed)).
Qed.

(** C4. [hasUserSigned] is true exactly when the current address is set,
    a vault is loaded in which the id denotes a transaction (the first one
    carrying it), and in that transaction's signer list the first entry
    whose address is the current address (the same string) has
    [hasSigned] true.  It is false when the current address is null, when
    no transaction has the id, and when no signer entry of the transaction
    has the current address. *)
Theorem hasUserSigned_spec (st : State) (txId : string) :
  (hasUserSigned st txId = true <->
     exists a v tx s,
       userAddress st = Some a /\ vault st = Some v /\
       firstWith (fun t => tx_id t = txId) (vault_transactions v) tx /\
       firstWith (fun x => signer_address x = a) (tx_signers tx) s /\
       signer_hasSigned s = true) /\
  (userAddress st = None -> hasUserSigned st txId = false) /\
  (getTransaction st txId = None -> hasUserSigned st txId = false) /\
  (forall v, vault st = Some v ->
     ~ In txId (map tx_id (vault_transactions v)) ->
     hasUserSigned st txId = false) /\
  (forall a tx, userAddress st = Some a -> getTransaction st txId = Some tx ->
     ~ In a (map signer_address (tx_signers tx)) ->
     hasUserSigned st txId = false).
Proof.
  assert (Hfind : forall a tx s,
             find (fun x => signer_address x =? a) (tx_signers tx) = Some s <->
             firstWith (fun x => signer_address x = a) (tx_signers tx) s).
  { intros a tx s. apply find_Some_firstWith. intros y. apply signer_address_reflects. }
  assert (Hnone : getTransaction st txId = None -> hasUserSigned st txId = false).
  { intros Hget. unfold hasUserSigned. rewrite Hget.
    destruct (userAddress st) as [a|]; [|reflexivity].
    now destruct (negb (Js.truthy a)). }
  split; [|split; [|split; [exact Hnone | split]]].
  - unfold hasUserSigned.
    destruct (userAddress st) as [a|] eqn:Ha.
    + rewrite (userAddress_truthy st a Ha). simpl.
      destruct (getTransaction st txId) as [tx|] eqn:Hget.
      * assert (Hv : exists v, vault st = Some v).
        { unfold getTransaction in Hget. destruct (vault st) as [v|]; [now exists v | discriminate]. }
        destruct Hv as (v & Hv).
        apply (getTransaction_firstWith st v txId tx Hv) in Hget.
        destruct (find (fun x => signer_address x =? a) (tx_signers tx)) as [s|] eqn:Hs.
        -- apply Hfind in Hs. split.
           ++ intros Hsigned. now exists a, v, tx, s.
           ++ intros (a' & v' & tx' & s' & Ha' & Hv' & Htx' & Hs' & Hsigned).
              assert (a' = a) by congruence. assert (v' = v) by congruence. subst a' v'.
              apply (getTransaction_firstWith st v txId tx' Hv) in Htx'.
              apply (getTransaction_firstWith st v txId tx Hv) in Hget.
              assert (tx' = tx) by congruence. subst tx'.
              apply Hfind in Hs, Hs'. congruence.
        -- split; [discriminate|].
           intros (a' & v' & tx' & s' & Ha' & Hv' & Htx' & Hs' & Hsigned).
           assert (a' = a) by congruence. assert (v' = v) by congruence. subst a' v'.
           apply (getTransaction_firstWith st v txId tx' Hv) in Htx'.
           apply (getTransaction_firstWith st v txId tx Hv) in Hget.
           assert (tx' = tx) by congruence. subst tx'.
           apply Hfind in Hs'. congruence.
      * split; [discriminate|].
        intros (a' & v' & tx' & s' & Ha' & Hv' & Htx' & _).
        apply (getTransaction_firstWith st v' txId tx' Hv') in Htx'. congruence.
    + split; [discriminate|]. intros (a' & v' & tx' & s' & Ha' & _). discriminate.
  - intros Ha. unfold hasUserSigned. now rewrite Ha.
  - intros v Hv Hnotin. apply Hnone. now apply (getTransaction_None st v txId Hv).
  - intros a tx Ha Hget Hnotin. unfold hasUserSigned. rewrite Ha, Hget.
    destruct (negb (Js.truthy a)); [reflexivity|].
    apply Forall_not_In_map in Hnotin.
    apply (find_None_Forall (fun x => signer_address x =? a)) in Hnotin.
    + now rewrite Hnotin.
    + intros y. apply signer_address_reflects.
Qed.

(* ------------------------------------------------------------------ *)
(** ** [fetchVault] *)

Lemma fetchVaultCalls_empty now :
  fetchVaultCalls "" now = [setError (Some "Vault address is required")].
Proof. reflexivity. Qed.

Lemma fetchVaultCalls_nonempty a now :
  a <> "" ->
  fetchVaultCalls a now =
    [setIsLoading true; setError None; setVault (Some (mockVaultData a now));
     setIsLoading false].
Proof.
  intros Ha. apply truthy_true in Ha.
  unfold fetchVaultCalls. now rewrite Ha.
Qed.

Lemma fetchVault_nonempty st a now :
  a <> "" ->
  fetchVault st a now =
    {| userData := userData st; vault := Some (mockVaultData a now);
       isLoading := false; error := None |}.
Proof.
  intros Ha. unfold fetchVault. now rewrite (fetchVaultCalls_nonempty a now Ha).
Qed.

Lemma fetchVault_empty st now :
  fetchVault st "" now =
    {| userData := userData st; vault := vault st;
       isLoading := isLoading st; error := Some "Vault address is required" |}.
Proof. reflexivity. Qed.

(** C10. With the empty address [fetchVault] makes one setter call,
    [setError]: the loading flag is never set, and of the state only the
    error changes; the loaded vault, if any, stays as it was. *)
Theorem fetchVault_empty_address_atomic (st : State) (now : Z) :
  fetchVaultCalls "" now = [setError (Some "Vault address is required")] /\
  (forall b, ~ In (setIsLoading b) (fetchVaultCalls "" now)) /\
  (forall v, ~ In (setVault v) (fetchVaultCalls "" now)) /\
  vault (fetchVault st "" now) = vault st /\
  isLoading (fetchVault st "" now) = isLoading st /\
  userData (fetchVault st "" now) = userData st /\
  error (fetchVault st "" now) = Some "Vault address is required".
Proof.
  rewrite fetchVault_empty, fetchVaultCalls_empty. simpl.
  repeat split; intros x [H | []]; discriminate.
Qed.

(** C5, as the code has it.  [fetchVault] rejects the empty address and
    no other: with the empty address the error becomes "Vault address is
    required" and the vault cell is left as it was; with any non-empty
    address, whatever its form, the error is cleared and the placeholder
    vault for that address is loaded. *)
Theorem fetchVault_rejects_only_empty (st : State) (a : string) (now : Z) :
  (a = "" ->
     error (fetchVault st a now) = Some "Vault address is required" /\
     vault (fetchVault st a now) = vault st) /\
  (a <> "" ->
     error (fetchVault st a now) = None /\
     vault (fetchVault st a now) = Some (mockVaultData a now)) /\
  (error (fetchVault st a now) <> None <-> a = "").
Proof.
  assert (H1 : a = "" ->
     error (fetchVault st a now) = Some "Vault address is required" /\
     vault (fetchVault st a now) = vault st).
  { intros ->. now rewrite fetchVault_empty. }
  assert (H2 : a <> "" ->
     error (fetchVault st a now) = None /\
     vault (fetchVault st a now) = Some (mockVaultData a now)).
  { intros Ha. now rewrite (fetchVault_nonempty st a now Ha). }
  split; [exact H1 | split; [exact H2|]].
  destruct (String.eqb_spec a "") as [E | E].
  - split; [trivial|]. intros _. destruct (H1 E) as [-> _]. discriminate.
  - split; [|contradiction]. intros H. destruct (H2 E) as [He _]. contradiction.
Qed.

(** C5, refuted as stated: the string "not-an-address" is not a
    well-formed account address, yet [fetchVault] reports no error for it
    and loads a vault under that address. *)
Lemma fetchVault_accepts_malformed_address :
  error (fetchVault (initialState None) "not-an-address" 0) = None /\
  vault (fetchVault (initialState None) "not-an-address" 0)
    = Some (mockVaultData "not-an-address" 0) /\
  vault (fetchVault (initialState None) "not-an-address" 0) <> None.
Proof.
  split; [reflexivity | split; [reflexivity | discriminate]].
Qed.

(** C8. A vault stored by [fetchVault] (the call succeeded, so the
    address was not empty) carries the requested address and satisfies
    [1 <= threshold <= |signers|]; it is the vault the hook holds
    afterwards, with no error set. *)
Theorem fetchVault_vault_invariant (a : string) (now : Z) (v : MultisigVault) :
  In (setVault (Some v)) (fetchVaultCalls a now) ->
  a <> "" /\
  vault_address v = a /\
  vaultInvariant v /\
  (forall st, vault (fetchVault st a now) = Some v /\
              error (fetchVault st a now) = None).
Proof.
  intros Hin.
  destruct (String.eqb_spec a "") as [E | E].
  - subst a. rewrite fetchVaultCalls_empty in Hin.
    destruct Hin as [H | []]. discriminate.
  - rewrite (fetchVaultCalls_nonempty a now E) in Hin. simpl in Hin.
    destruct Hin as [H | [H | [H | [H | []]]]]; try discriminate.
    inversion H; subst v.
    split; [exact E | split; [reflexivity | split]].
    + unfold vaultInvariant. simpl. lia.
    + intros st. now rewrite (fetchVault_nonempty st a now E).
Qed.

(** C6, as the code has it.  Two successive [fetchVault] calls with the
    same non-empty address load vaults with equal address, signers,
    threshold and balance, and with transactions equal in every field but
    [timestamp], which holds the clock reading of its call; the vaults are
    equal when the two clock readings are. *)
Theorem fetchVault_repeat (st : State) (a : string) (now1 now2 : Z) :
  a <> "" ->
  exists v1 v2,
    vault (fetchVault st a now1) = Some v1 /\
    vault (fetchVault (fetchVault st a now1) a now2) = Some v2 /\
    vault_address v1 = vault_address v2 /\
    vault_signers v1 = vault_signers v2 /\
    vault_threshold v1 = vault_threshold v2 /\
    vault_balance v1 = vault_balance v2 /\
    Forall2 sameButTimestamp (vault_transactions v1) (vault_transactions v2) /\
    Forall (fun t => tx_timestamp t = now1) (vault_transactions v1) /\
    Forall (fun t => tx_timestamp t = now2) (vault_transactions v2) /\
    (now1 = now2 -> v1 = v2).
Proof.
  intros Ha.
  exists (mockVaultData a now1), (mockVaultData a now2).
  rewrite !(fetchVault_nonempty _ a _ Ha). simpl.
  repeat split; try reflexivity.
  - repeat constructor.
  - repeat constructor.
  - repeat constructor.
  - now intros ->.
Qed.

(** C6, refuted as stated: two successive fetches of the same address
    read the clock at 1000 and at 1001, and the two vaults differ in their
    transaction lists. *)
Lemma fetchVault_transactions_differ_across_clock :
  option_map vault_transactions
    (vault (fetchVault (initialState None) signerA 1000))
  <> option_map vault_transactions
       (vault (fetchVault (fetchVault (initialState None) signerA 1000)
                          signerA 1001)).
Proof.
  simpl. intros H. inversion H.
Qed.

(* ------------------------------------------------------------------ *)
(** ** The theorems at concrete states *)

Example loadedState_queries :
  getSignatureCount (loadedState signerA) "txn-001" = 1 /\
  isReadyToExecute (loadedState signerA) "txn-001" = false /\
  hasUserSigned (loadedState signerA) "txn-001" = true /\
  hasUserSigned (loadedState signerB) "txn-001" = false /\
  isSigner (loadedState signerC) = true /\
  isSigner (loadedState "SP000STRANGER") = false.
Proof. repeat split. Qed.

Example sampleState_queries :
  map tx_id (getPendingTransactions sampleState)
    = ["txn-001"; "txn-003"; "txn-004"; "txn-005"] /\
  map tx_id (getExecutedTransactions sampleState) = ["txn-002"] /\
  map (getSignatureCount sampleState)
      ["txn-001"; "txn-002"; "txn-003"; "txn-004"; "txn-005"; "txn-006"]
    = [0; 2; 1; 2; 2; 0] /\
  map (isReadyToExecute sampleState)
      ["txn-001"; "txn-002"; "txn-003"; "txn-004"; "txn-005"; "txn-006"]
    = [false; true; false; true; true; false] /\
  userAddress sampleState = Some signerB /\
  map (hasUserSigned sampleState)
      ["txn-001"; "txn-002"; "txn-003"; "txn-004"; "txn-005"; "txn-006"]
    = [false; true; false; false; true; false].
Proof. repeat split. Qed.

Lemma getSignatureCount_isReadyToExecute_spec_witness :
  exists tx,
    firstWith (fun t => tx_id t = "txn-004") (vault_transactions sampleVault) tx /\
    getSignatureCount sampleState "txn-004" = spec_signatureCount (tx_signers tx) /\
    (isReadyToExecute sampleState "txn-004" = true <->
       (Z.of_nat (getSignatureCount sampleState "txn-004")
        >= vault_threshold sampleVault)%Z) /\
    (isReadyToExecute sampleState "txn-004" = true <->
       spec_isReady tx (vault_threshold sampleVault)).
Proof.
  apply (getSignatureCount_isReadyToExecute_spec sampleState sampleVault "txn-004").
  - reflexivity.
  - simpl. tauto.
Defined.

Lemma unknown_id_neutral_witness :
  getSignatureCount sampleState "txn-999" = 0 /\
  isReadyToExecute sampleState "txn-999" = false.
Proof.
  apply (unknown_id_neutral sampleState sampleVault "txn-999").
  - reflexivity.
  - simpl. lia.
  - simpl. intros H. repeat (destruct H as [H | H]; [discriminate|]). exact H.
Defined.

Lemma pending_executed_partition_witness :
  Permutation (getPendingTransactions sampleState ++ getExecutedTransactions sampleState)
              (vault_transactions sampleVault).
Proof.
  apply (pending_executed_partition sampleState sampleVault). reflexivity.
Defined.

Lemma hasUserSigned_spec_witness :
  hasUserSigned sampleState "txn-005" = true.
Proof.
  apply (proj1 (hasUserSigned_spec sampleState "txn-005")).
  exists signerB, sampleVault, (sampleTx "txn-005" ready_to_execute false true true),
    {| signer_address := signerB; signer_hasSigned := true |}.
  split; [reflexivity | split; [reflexivity | split; [|split; [|reflexivity]]]].
  - exists [ sampleTx "txn-001" pending false false false;
             sampleTx "txn-002" executed true true false;
             sampleTx "txn-003" signed true false false;
             sampleTx "txn-004" failed true false true ], [].
    split; [reflexivity | split; [reflexivity|]].
    repeat constructor; simpl; discriminate.
  - exists [ {| signer_address := signerA; signer_hasSigned := false |} ],
      [ {| signer_address := signerC; signer_hasSigned := true |} ].
    split; [reflexivity | split; [reflexivity|]].
    repeat constructor; simpl; discriminate.
Defined.

Lemma isSigner_spec_witness : isSigner sampleState = true.
Proof.
  apply (proj1 (isSigner_spec sampleState)).
  exists sampleVault, signerB.
  split; [reflexivity | split; [reflexivity|]].
  simpl. tauto.
Defined.

Lemma fetchVault_rejects_only_empty_witness :
  error (fetchVault sampleState "" 0) = Some "Vault address is required" /\
  vault (fetchVault sampleState "" 0) = vault sampleState.
Proof.
  apply (proj1 (fetchVault_rejects_only_empty sampleState "" 0)). reflexivity.
Defined.

Lemma fetchVault_vault_invariant_witness :
  "SP000VAULT" <> "" /\
  vault_address (mockVaultData "SP000VAULT" 1700000000000) = "SP000VAULT" /\
  vaultInvariant (mockVaultData "SP000VAULT" 1700000000000) /\
  (forall st,
     vault (fetchVault st "SP000VAULT" 1700000000000)
       = Some (mockVaultData "SP000VAULT" 1700000000000) /\
     error (fetchVault st "SP000VAULT" 1700000000000) = None).
Proof.
  apply (fetchVault_vault_invariant "SP000VAULT" 1700000000000
           (mockVaultData "SP000VAULT" 1700000000000)).
  simpl. tauto.
Defined.

Lemma fetchVault_repeat_witness :
  exists v1 v2,
    vault (fetchVault sampleState "SP000VAULT" 1000) = Some v1 /\
    vault (fetchVault (fetchVault sampleState "SP000VAULT" 1000) "SP000VAULT" 1001)
      = Some v2 /\
    vault_address v1 = vault_address v2 /\
    vault_signers v1 = vault_signers v2 /\
    vault_threshold v1 = vault_threshold v2 /\
    vault_balance v1 = vault_balance v2 /\
    Forall2 sameButTimestamp (vault_transactions v1) (vault_transactions v2) /\
    Forall (fun t => tx_timestamp t = 1000%Z) (vault_transactions v1) /\
    Forall (fun t => tx_timestamp t = 1001%Z) (vault_transactions v2) /\
    (1000%Z = 1001%Z -> v1 = v2).
Proof.
  apply (fetchVault_repeat sampleState "SP000VAULT" 1000 1001). discriminate.
Defined.

(* ================================================================== *)
(** * Further properties of [useStacks] *)

(** X1. The network and the address memos agree: the network is
    "disconnected" exactly when the address is null; on "testnet" the
    address is the testnet field; on "mainnet" it is the mainnet field and
    the testnet field is missing or empty. *)
Theorem network_address_agree (ud : option StacksUserData) :
  (network ud = net_disconnected <-> address ud = None) /\
  (network ud = net_testnet ->
     exists sa, stxAddressOf ud = Some sa /\ address ud = testnet sa) /\
  (network ud = net_mainnet ->
     exists sa, stxAddressOf ud = Some sa /\ address ud = mainnet sa /\
                Js.not (testnet sa) = true).
Proof.
  unfold network, address.
  destruct (stxAddressOf ud) as [sa|].
  - destruct sa as [m t]; simpl.
    destruct t as [t|], m as [m|]; simpl;
      try destruct (Js.truthy t) eqn:Et; try destruct (Js.truthy m) eqn:Em; simpl;
      rewrite ?Et, ?Em;
      (split; [split; intros H; try discriminate; try reflexivity
              | split; intros H; try discriminate;
                eexists; repeat split; simpl; rewrite ?Et; reflexivity]).
  - split; [split; reflexivity | split; discriminate].
Qed.

(** X2. A current address is never the empty string, and it is the value
    of the testnet or of the mainnet field of the profile. *)
Theorem address_nonempty_origin (ud : option StacksUserData) (a : string) :
  address ud = Some a ->
  a <> "" /\
  exists sa, stxAddressOf ud = Some sa /\
             (testnet sa = Some a \/ mainnet sa = Some a).
Proof.
  intros H. split.
  - apply truthy_true. exact (address_truthy ud a H).
  - unfold address in H. destruct (stxAddressOf ud) as [sa|]; [|discriminate].
    exists sa. split; [reflexivity|].
    unfold Js.or in H.
    destruct (testnet sa) as [t|].
    + destruct (Js.truthy t) eqn:Et.
      * rewrite Et in H. left. congruence.
      * destruct (mainnet sa) as [m|]; [|discriminate].
        destruct (Js.truthy m); [|discriminate]. right. congruence.
    + destruct (mainnet sa) as [m|]; [|discriminate].
      destruct (Js.truthy m); [|discriminate]. right. congruence.
Qed.

Lemma address_nonempty_origin_witness :
  "ST1TEST" <> "" /\
  exists sa, stxAddressOf (userDataOf (Some "ST1TEST") (Some "SP1MAIN")) = Some sa /\
             (testnet sa = Some "ST1TEST" \/ mainnet sa = Some "ST1TEST").
Proof.
  apply (address_nonempty_origin (userDataOf (Some "ST1TEST") (Some "SP1MAIN")) "ST1TEST").
  reflexivity.
Defined.

(** X3. When the effect is not cancelled, [initializeSession] leaves the
    hook ready on every path on which it runs to its end: a thrown
    exception and a rejected sign-in included.  The one other path is a
    pending sign-in whose promise never settles: there the function makes
    no call at all, so the ready flag stays as it was. *)
Theorem initializeSession_sets_ready (s : UserSession) (st : HookState) :
  (~ (isSignInPending s = returns true /\
      handlePendingSignIn s = returns unsettled) ->
   UseStacks.isReady (applyHookCalls st (initializeSession s false)) = true) /\
  (isSignInPending s = returns true ->
   handlePendingSignIn s = returns unsettled ->
   forall cancelled,
     initializeSession s cancelled = [] /\
     applyHookCalls st (initializeSession s cancelled) = st).
Proof.
  unfold initializeSession. split.
  - intros Hsettles.
    destruct (isSignInPending s) as [[|]|].
    + destruct (handlePendingSignIn s) as [[d| |]|]; try reflexivity.
      exfalso. apply Hsettles. now split.
    + destruct (isUserSignedIn s) as [[|]|]; [|reflexivity|reflexivity].
      destruct (loadUserData s); reflexivity.
    + reflexivity.
  - intros -> -> cancelled. split; reflexivity.
Qed.

(** X4. When the component unmounts while the pending sign-in is awaited,
    [initializeSession] calls no state setter: the hook state stays as it
    was, and the only possible call is the error log. *)
Theorem initializeSession_cancelled_no_effect (s : UserSession) (st : HookState)
    (p : Settled StacksUserData) :
  isSignInPending s = returns true ->
  handlePendingSignIn s = returns p ->
  applyHookCalls st (initializeSession s true) = st /\
  (forall c, In c (initializeSession s true) -> c = consoleError).
Proof.
  intros Hp Hh. unfold initializeSession. rewrite Hp, Hh.
  destruct p as [d| |]; simpl.
  - split; [reflexivity | intros c []].
  - split; [reflexivity | intros c [H | []]; now subst].
  - split; [reflexivity | intros c []].
Qed.


(** X6. [initializeSession] changes the user data only to data the wallet
    library handed over: afterwards the user data is what it was, or the
    data of the resolved pending sign-in, or (with no sign-in pending and a
    stored session) the data [loadUserData] returned.  It never signs a
    user out. *)
Theorem initializeSession_userData (s : UserSession) (st : HookState)
    (cancelled : bool) :
  (UseStacks.userData (applyHookCalls st (initializeSession s cancelled))
     = UseStacks.userData st \/
   (exists d, isSignInPending s = returns true /\ cancelled = false /\
              handlePendingSignIn s = returns (resolved d) /\
              UseStacks.userData (applyHookCalls st (initializeSession s cancelled))
                = Some d) \/
   (exists d, isSignInPending s = returns false /\
              isUserSignedIn s = returns true /\
              loadUserData s = returns d /\
              UseStacks.userData (applyHookCalls st (initializeSession s cancelled))
                = Some d)) /\
  (UseStacks.userData st <> None ->
   UseStacks.userData (applyHookCalls st (initializeSession s cancelled)) <> None).
Proof.
  unfold initializeSession.
  destruct (isSignInPending s) as [[|]|].
  - destruct (handlePendingSignIn s) as [[d| |]|]; simpl.
    + destruct cancelled; simpl.
      * split; [now left | trivial].
      * split; [right; left; now exists d | discriminate].
    + destruct cancelled; simpl; (split; [now left | trivial]).
    + split; [now left | trivial].
    + split; [now left | trivial].
  - destruct (isUserSignedIn s) as [[|]|]; simpl.
    + destruct (loadUserData s) as [d|]; simpl.
      * split; [right; right; now exists d | discriminate].
      * split; [now left | trivial].
    + split; [now left | trivial].
    + split; [now left | trivial].
  - split; [now left | trivial].
Qed.

(** X7. When [signUserOut] returns, [disconnect] signs the user out
    from any state: no user data, no address, network "disconnected".
    When [signUserOut] throws, the hook state stays as it was, so a
    signed-in user stays signed in.  The ready flag is untouched either
    way. *)
Theorem disconnect_signs_out (st : HookState) (signOut : Outcome unit) :
  (signOut <> throws ->
   isSignedIn (applyHookCalls st (disconnect signOut)) = false /\
   address (UseStacks.userData (applyHookCalls st (disconnect signOut))) = None /\
   network (UseStacks.userData (applyHookCalls st (disconnect signOut)))
     = net_disconnected) /\
  (signOut = throws -> applyHookCalls st (disconnect signOut) = st) /\
  UseStacks.isReady (applyHookCalls st (disconnect signOut)) = UseStacks.isReady st.
Proof.
  destruct signOut as [u|]; simpl.
  - split; [intros _; repeat split | split; [discriminate | reflexivity]].
  - split; [intros H; now contradiction H | split; [reflexivity | reflexivity]].
Qed.

Lemma disconnect_signs_out_witness :
  isSignedIn (applyHookCalls signedInHook (disconnect (returns tt))) = false /\
  address (UseStacks.userData (applyHookCalls signedInHook (disconnect (returns tt))))
    = None /\
  network (UseStacks.userData (applyHookCalls signedInHook (disconnect (returns tt))))
    = net_disconnected.
Proof.
  apply (proj1 (disconnect_signs_out signedInHook (returns tt))). discriminate.
Defined.

Example disconnect_throwing_stays_signed_in :
  isSignedIn (applyHookCalls signedInHook (disconnect throws)) = true /\
  address (UseStacks.userData (applyHookCalls signedInHook (disconnect throws)))
    = Some "ST1TEST".
Proof. split; reflexivity. Qed.

(** X8. [connect] changes the hook state in one case only: there is a
    [window], the popup finishes and [loadUserData] returns; the user data
    then is the returned data.  Without a [window], on cancel, or when
    [loadUserData] throws, the state stays as it was.  The ready flag is
    never changed. *)
Theorem connect_effect (st : HookState) (s : UserSession) (r : ConnectResult)
    (hasWindow : bool) :
  (forall d, hasWindow = true -> r = onFinish -> loadUserData s = returns d ->
     applyHookCalls st (connect hasWindow s r)
       = {| UseStacks.userData := Some d; UseStacks.isReady := UseStacks.isReady st |}) /\
  (hasWindow = false \/ r = onCancel \/ loadUserData s = throws ->
     applyHookCalls st (connect hasWindow s r) = st) /\
  UseStacks.isReady (applyHookCalls st (connect hasWindow s r)) = UseStacks.isReady st.
Proof.
  unfold connect. split; [|split].
  - intros d -> -> Hl. simpl. now rewrite Hl.
  - intros [-> | [-> | Hl]].
    + reflexivity.
    + now destruct hasWindow.
    + destruct hasWindow, r; simpl; try reflexivity. now rewrite Hl.
  - destruct hasWindow, r; simpl; try reflexivity.
    destruct (loadUserData s); reflexivity.
Qed.

Lemma initializeSession_sets_ready_witness :
  UseStacks.isReady (applyHookCalls freshHook (initializeSession throwingSession false))
    = true /\
  UseStacks.isReady (applyHookCalls freshHook (initializeSession pendingSession false))
    = true /\
  initializeSession hangingSession false = [] /\
  applyHookCalls freshHook (initializeSession hangingSession false) = freshHook.
Proof.
  split; [|split].
  - apply (proj1 (initializeSession_sets_ready throwingSession freshHook)).
    intros [H _]. discriminate.
  - apply (proj1 (initializeSession_sets_ready pendingSession freshHook)).
    intros [_ H]. discriminate.
  - apply (proj2 (initializeSession_sets_ready hangingSession freshHook));
      reflexivity.
Defined.

Lemma initializeSession_cancelled_no_effect_witness :
  applyHookCalls freshHook (initializeSession pendingSession true) = freshHook /\
  (forall c, In c (initializeSession pendingSession true) -> c = consoleError).
Proof.
  apply (initializeSession_cancelled_no_effect pendingSession freshHook
           (resolved sampleUserData)); reflexivity.
Defined.


(* ================================================================== *)
(** * Further properties of [useMultisig] *)

(** X9. [getTransaction] is a lookup by id: a transaction it returns
    carries the requested id and belongs to the loaded vault; it returns a
    transaction for every id that occurs in the vault, and nothing for an
    id that does not occur. *)
Theorem getTransaction_lookup (st : State) (txId : string) :
  (forall tx, getTransaction st txId = Some tx ->
     tx_id tx = txId /\
     exists v, vault st = Some v /\ In tx (vault_transactions v)) /\
  (forall v, vault st = Some v -> In txId (map tx_id (vault_transactions v)) ->
     exists tx, getTransaction st txId = Some tx) /\
  (forall v, vault st = Some v -> ~ In txId (map tx_id (vault_transactions v)) ->
     getTransaction st txId = None).
Proof.
  split; [|split].
  - intros tx H. unfold getTransaction in H.
    destruct (vault st) as [v|] eqn:Hv; [|discriminate].
    apply find_some in H. destruct H as [Hin Hid].
    apply String.eqb_eq in Hid. split; [exact Hid|]. now exists v.
  - intros v Hv Hin.
    destruct (getTransaction st txId) as [tx|] eqn:Hget; [now exists tx|].
    apply (getTransaction_None st v txId Hv) in Hget. contradiction.
  - intros v Hv Hnotin. now apply (getTransaction_None st v txId Hv).
Qed.

(** X10. With no vault loaded every query gives its neutral answer: not a
    signer, no transaction, count 0, not ready, not signed, and empty
    pending and executed lists. *)
Theorem no_vault_neutral (st : State) (txId : string) :
  vault st = None ->
  isSigner st = false /\
  getTransaction st txId = None /\
  getSignatureCount st txId = 0 /\
  isReadyToExecute st txId = false /\
  hasUserSigned st txId = false /\
  getPendingTransactions st = [] /\
  getExecutedTransactions st = [].
Proof.
  intros Hv.
  assert (Hget : getTransaction st txId = None).
  { unfold getTransaction. now rewrite Hv. }
  unfold isSigner, getSignatureCount, isReadyToExecute, hasUserSigned,
    getPendingTransactions, getExecutedTransactions.
  rewrite Hget, Hv. repeat split.
  destruct (userAddress st) as [a|]; [|reflexivity].
  now destruct (negb (Js.truthy a)).
Qed.

Lemma no_vault_neutral_witness :
  isSigner (initialState (userDataOf (Some signerA) None)) = false /\
  getTransaction (initialState (userDataOf (Some signerA) None)) "txn-001" = None /\
  getSignatureCount (initialState (userDataOf (Some signerA) None)) "txn-001" = 0 /\
  isReadyToExecute (initialState (userDataOf (Some signerA) None)) "txn-001" = false /\
  hasUserSigned (initialState (userDataOf (Some signerA) None)) "txn-001" = false /\
  getPendingTransactions (initialState (userDataOf (Some signerA) None)) = [] /\
  getExecutedTransactions (initialState (userDataOf (Some signerA) None)) = [].
Proof.
  apply (no_vault_neutral (initialState (userDataOf (Some signerA) None)) "txn-001").
  reflexivity.
Defined.

Lemma filter_length_le {A : Type} (f : A -> bool) (l : list A) :
  List.length (filter f l) <= List.length l.
Proof.
  induction l as [|x l IH]; simpl; [lia|].
  destruct (f x); simpl; lia.
Qed.

(** X11. The signature count of a transaction never exceeds the number of
    its signer entries; so a transaction whose signer list is shorter than
    the vault's threshold is not ready to execute. *)
Theorem signatureCount_bounded (st : State) (v : MultisigVault) (txId : string)
    (tx : MultisigTransaction) :
  vault st = Some v ->
  getTransaction st txId = Some tx ->
  getSignatureCount st txId <= List.length (tx_signers tx) /\
  ((Z.of_nat (List.length (tx_signers tx)) < vault_threshold v)%Z ->
   isReadyToExecute st txId = false).
Proof.
  intros Hv Hget.
  assert (Hle : getSignatureCount st txId <= List.length (tx_signers tx)).
  { unfold getSignatureCount. rewrite Hget. apply filter_length_le. }
  split; [exact Hle|].
  intros Hlt. unfold isReadyToExecute. rewrite Hv.
  rewrite Z.geb_leb. apply Z.leb_gt. lia.
Qed.

Lemma signatureCount_bounded_witness :
  getSignatureCount sampleState "txn-004"
    <= List.length (tx_signers (sampleTx "txn-004" failed true false true)) /\
  ((Z.of_nat (List.length (tx_signers (sampleTx "txn-004" failed true false true)))
    < vault_threshold sampleVault)%Z ->
   isReadyToExecute sampleState "txn-004" = false).
Proof.
  apply (signatureCount_bounded sampleState sampleVault "txn-004"
           (sampleTx "txn-004" failed true false true)); reflexivity.
Defined.

(** X12. With a loaded vault whose threshold is 0 or negative,
    [isReadyToExecute] is true for every id, also for an id no transaction
    has. *)
Theorem nonpositive_threshold_always_ready (st : State) (v : MultisigVault)
    (txId : string) :
  vault st = Some v ->
  (vault_threshold v <= 0)%Z ->
  isReadyToExecute st txId = true.
Proof.
  intros Hv Hthr. unfold isReadyToExecute. rewrite Hv.
  rewrite Z.geb_leb. apply Z.leb_le. lia.
Qed.

Lemma nonpositive_threshold_always_ready_witness :
  isReadyToExecute zeroThresholdState "txn-999" = true.
Proof.
  apply (nonpositive_threshold_always_ready zeroThresholdState
           {| vault_address := "SP000VAULT";
              vault_signers := [signerA; signerB; signerC];
              vault_threshold := 0;
              vault_balance := "0";
              vault_transactions :=
                [ sampleTx "txn-001" pending false false false ] |} "txn-999").
  - reflexivity.
  - simpl. lia.
Defined.

(** X13. When [hasUserSigned] is true for an id, the signature count of
    that id is at least 1, and the current address is the address of a
    signer entry of the transaction. *)
Theorem hasUserSigned_counts (st : State) (txId : string) :
  hasUserSigned st txId = true ->
  1 <= getSignatureCount st txId /\
  exists a tx, userAddress st = Some a /\ getTransaction st txId = Some tx /\
               In a (map signer_address (tx_signers tx)).
Proof.
  unfold hasUserSigned, getSignatureCount.
  destruct (userAddress st) as [a|]; [|discriminate].
  destruct (negb (Js.truthy a)); [discriminate|].
  destruct (getTransaction st txId) as [tx|]; [|discriminate].
  destruct (find (fun s => signer_address s =? a) (tx_signers tx)) as [s|] eqn:Hs;
    [|discriminate].
  intros Hsigned. apply find_some in Hs. destruct Hs as [Hin Ha].
  apply String.eqb_eq in Ha. split.
  - assert (Hf : In s (filter (fun signer => signer_hasSigned signer) (tx_signers tx))).
    { apply filter_In. now split. }
    destruct (filter (fun signer => signer_hasSigned signer) (tx_signers tx));
      [contradiction | simpl; lia].
  - exists a, tx. split; [reflexivity | split; [reflexivity|]].
    apply in_map_iff. now exists s.
Qed.

Lemma hasUserSigned_counts_witness :
  1 <= getSignatureCount sampleState "txn-005" /\
  exists a tx, userAddress sampleState = Some a /\
               getTransaction sampleState "txn-005" = Some tx /\
               In a (map signer_address (tx_signers tx)).
Proof.
  apply (hasUserSigned_counts sampleState "txn-005"). reflexivity.
Defined.

(** X14. A successful [fetchVault] replaces whatever the hook held: the
    resulting vault, error and loading flag do not depend on the state
    before the call, the error is cleared and loading has ended.  The
    loading flag is raised by the first setter call and lowered by the
    last, and fetching again with the same clock reading changes
    nothing. *)
Theorem fetchVault_success_overwrites (st st' : State) (a : string) (now : Z) :
  a <> "" ->
  UseMultisig.userData st = UseMultisig.userData st' ->
  fetchVault st a now = fetchVault st' a now /\
  isLoading (fetchVault st a now) = false /\
  error (fetchVault st a now) = None /\
  hd_error (fetchVaultCalls a now) = Some (setIsLoading true) /\
  last (fetchVaultCalls a now) (setIsLoading true) = setIsLoading false /\
  fetchVault (fetchVault st a now) a now = fetchVault st a now.
Proof.
  intros Ha Hud.
  rewrite !(fetchVault_nonempty _ a now Ha), (fetchVaultCalls_nonempty a now Ha), Hud.
  repeat split.
Qed.

Lemma fetchVault_success_overwrites_witness :
  fetchVault sampleState "SP000VAULT" 1000
    = fetchVault (initialState (userDataOf (Some signerB) (Some signerA)))
                 "SP000VAULT" 1000 /\
  isLoading (fetchVault sampleState "SP000VAULT" 1000) = false /\
  error (fetchVault sampleState "SP000VAULT" 1000) = None /\
  hd_error (fetchVaultCalls "SP000VAULT" 1000) = Some (setIsLoading true) /\
  last (fetchVaultCalls "SP000VAULT" 1000) (setIsLoading true) = setIsLoading false /\
  fetchVault (fetchVault sampleState "SP000VAULT" 1000) "SP000VAULT" 1000
    = fetchVault sampleState "SP000VAULT" 1000.
Proof.
  apply (fetchVault_success_overwrites sampleState
           (initialState (userDataOf (Some signerB) (Some signerA)))
           "SP000VAULT" 1000).
  - discriminate.
  - reflexivity.
Defined.

(** X15. A [fetchVault] rejected for its empty address disturbs no query:
    every derived value and query answers after the call as it did
    before. *)
Theorem fetchVault_failure_keeps_queries (st : State) (now : Z) (txId : string) :
  isSigner (fetchVault st "" now) = isSigner st /\
  getTransaction (fetchVault st "" now) txId = getTransaction st txId /\
  getSignatureCount (fetchVault st "" now) txId = getSignatureCount st txId /\
  isReadyToExecute (fetchVault st "" now) txId = isReadyToExecute st txId /\
  hasUserSigned (fetchVault st "" now) txId = hasUserSigned st txId /\
  getPendingTransactions (fetchVault st "" now) = getPendingTransactions st /\
  getExecutedTransactions (fetchVault st "" now) = getExecutedTransactions st.
Proof.
  rewrite fetchVault_empty. repeat split.
Qed.

(** X16. A transaction found by [getTransaction] is listed by exactly one
    of [getPendingTransactions] and [getExecutedTransactions]: by the
    second when its status is [executed], by the first otherwise. *)
Theorem found_transaction_listed_once (st : State) (txId : string)
    (tx : MultisigTransaction) :
  getTransaction st txId = Some tx ->
  (tx_status tx <> executed /\
   In tx (getPendingTransactions st) /\ ~ In tx (getExecutedTransactions st)) \/
  (tx_status tx = executed /\
   In tx (getExecutedTransactions st) /\ ~ In tx (getPendingTransactions st)).
Proof.
  intros Hget. unfold getTransaction in Hget.
  unfold getPendingTransactions, getExecutedTransactions.
  destruct (vault st) as [v|]; [|discriminate].
  apply find_some in Hget. destruct Hget as [Hin _].
  rewrite !filter_In.
  destruct (status_eqb (tx_status tx) executed) eqn:E.
  - right. apply status_eqb_eq in E.
    split; [exact E | split; [now split|]]. intros [_ H]. discriminate.
  - left. split; [|split; [now split|]].
    + intros H. apply status_eqb_eq in H. congruence.
    + intros [_ H]. discriminate.
Qed.

Lemma found_transaction_listed_once_witness :
  (tx_status (sampleTx "txn-002" executed true true false) <> executed /\
   In (sampleTx "txn-002" executed true true false) (getPendingTransactions sampleState) /\
   ~ In (sampleTx "txn-002" executed true true false) (getExecutedTransactions sampleState)) \/
  (tx_status (sampleTx "txn-002" executed true true false) = executed /\
   In (sampleTx "txn-002" executed true true false) (getExecutedTransactions sampleState) /\
   ~ In (sampleTx "txn-002" executed true true false) (getPendingTransactions sampleState)).
Proof.
  apply (found_transaction_listed_once sampleState "txn-002"). reflexivity.
Defined.

(* ================================================================== *)
(** * Address formatting in the dashboard *)

Import Dashboard.

Lemma slice_prefix {A : Type} (s : list A) (n : Z) :
  (0 <= n)%Z -> slice s 0 (Some n) = firstn (Z.to_nat n) s.
Proof.
  intros Hn. unfold slice.
  change (0 <? 0)%Z with false. cbv iota.
  destruct (n <? 0)%Z eqn:E; [apply Z.ltb_lt in E; lia|].
  replace (Z.to_nat (Z.min 0 (Z.of_nat (List.length s)))) with 0 by lia.
  rewrite skipn_O.
  destruct (Z.le_ge_cases n (Z.of_nat (List.length s))) as [H | H].
  - f_equal. lia.
  - rewrite !firstn_all2 by lia. reflexivity.
Qed.

Lemma slice_suffix {A : Type} (s : list A) (n : Z) :
  (0 < n)%Z ->
  slice s (- n) None = skipn (List.length s - Z.to_nat n) s.
Proof.
  intros Hn. unfold slice.
  destruct (- n <? 0)%Z eqn:E; [|apply Z.ltb_ge in E; lia].
  destruct (Z.of_nat (List.length s) <? 0)%Z eqn:E2; [apply Z.ltb_lt in E2; lia|].
  rewrite Z.min_id.
  replace (Z.to_nat (Z.max (Z.of_nat (List.length s) + - n) 0))
    with (List.length s - Z.to_nat n) by lia.
  apply firstn_all2. rewrite length_skipn. lia.
Qed.

Lemma segment_decomposition {A : Type} (l : list A) (from span : nat) :
  l = firstn from l ++ firstn span (skipn from l) ++ skipn span (skipn from l).
Proof.
  now rewrite (firstn_skipn span), (firstn_skipn from).
Qed.

Lemma formatAddress_parts (address : JsString) :
  formatAddress address
  = firstn 6 address ++ separator ++ skipn (List.length address - 4) address.
Proof.
  unfold formatAddress.
  rewrite (slice_prefix address 6) by lia.
  change (slice address (-4) None) with (slice address (Z.opp 4) None).
  rewrite (slice_suffix address 4) by lia.
  reflexivity.
Qed.

(** X18. The formatted address has [min 6 n + 3 + min 4 n] code units for
    an address of [n]: never more than 13, and fewer than the address
    itself exactly when the address has more than 13. *)
Theorem formatAddress_length (address : JsString) :
  List.length (formatAddress address)
    = Nat.min 6 (List.length address) + 3 + Nat.min 4 (List.length address) /\
  List.length (formatAddress address) <= 13 /\
  (List.length (formatAddress address) < List.length address <->
   13 < List.length address).
Proof.
  rewrite formatAddress_parts.
  rewrite !length_app, length_firstn, length_skipn.
  change (List.length separator) with 3.
  repeat split; lia.
Qed.

(** X19. For an address of at least 10 code units the result is its
    first 6 code units, the separator and its last 4; the two shown parts
    do not overlap, and what is hidden between them has [n - 10] code
    units. *)
Theorem formatAddress_long (address : JsString) :
  10 <= List.length address ->
  exists head hidden tail,
    address = head ++ hidden ++ tail /\
    List.length head = 6 /\
    List.length tail = 4 /\
    List.length hidden = List.length address - 10 /\
    formatAddress address = head ++ separator ++ tail.
Proof.
  intros Hlen.
  exists (firstn 6 address),
    (firstn (List.length address - 10) (skipn 6 address)),
    (skipn (List.length address - 4) address).
  split; [|split; [|split; [|split]]].
  - rewrite (segment_decomposition address 6 (List.length address - 10)) at 1.
    rewrite skipn_skipn. do 3 f_equal. lia.
  - rewrite length_firstn. lia.
  - rewrite length_skipn. lia.
  - rewrite length_firstn, length_skipn. lia.
  - apply formatAddress_parts.
Qed.

Lemma formatAddress_long_witness :
  exists head hidden tail,
    adminAddress = head ++ hidden ++ tail /\
    List.length head = 6 /\
    List.length tail = 4 /\
    List.length hidden = List.length adminAddress - 10 /\
    formatAddress adminAddress = head ++ separator ++ tail.
Proof.
  apply (formatAddress_long adminAddress). vm_compute. lia.
Defined.

(** X20. For an address of at most 4 code units nothing is abbreviated:
    the result is the whole address, the separator and the whole address
    again; the empty address gives the separator alone. *)
Theorem formatAddress_short (address : JsString) :
  List.length address <= 4 ->
  formatAddress address = address ++ separator ++ address.
Proof.
  intros Hlen. rewrite formatAddress_parts.
  rewrite firstn_all2 by lia.
  replace (List.length address - 4) with 0 by lia.
  reflexivity.
Qed.

Lemma formatAddress_short_witness :
  formatAddress (codeUnits "SP1") = codeUnits "SP1" ++ separator ++ codeUnits "SP1".
Proof.
  apply (formatAddress_short (codeUnits "SP1")). vm_compute. lia.
Defined.

Example formatAddress_adminAddress :
  formatAddress adminAddress = codeUnits "ST1PQH" ++ separator ++ codeUnits "GZGM".
Proof. reflexivity. Qed.
